(** * Age-X: the [/api/age-check] endpoint of [backend/app.py]

    A shallow embedding of [age_check] and of the Python notions it relies
    on: values that travel as JSON, exceptions and their class tests,
    [try]/[except], and the module logger.  The functions that the endpoint
    imports from outside the file ([base64.b64decode], Pillow's
    [Image.open] and [convert], [numpy.array], and the repository's own
    [AgeService.detect_and_predict]) are parameters of the embedding. *)

From Stdlib Require Import String Ascii List ZArith Bool Lia.
From Stdlib Require Import Floats.SpecFloat.
From Stdlib Require Import Init.Byte DecimalString.
Import ListNotations.
Set Warnings "-register-all".
Local Open Scope string_scope.

(** ** Python values *)

(** The values an endpoint can hand to FastAPI's JSON encoder.  A [dict] is
    kept as its items in insertion order, which is also the order of the
    fields in the response body. *)
Inductive pyval : Type :=
| PyNone
| PyBool (b : bool)
| PyInt (n : Z)
| PyFloat (x : spec_float)
| PyStr (s : string)
| PyList (xs : list pyval)
| PyDict (items : list (string * pyval)).

(** The float literal [0.0]. *)
Definition float_zero : spec_float := S754_zero false.

(** [bool(v)]: the truth value Python gives to [v] in a condition. *)
Definition truthy (v : pyval) : bool :=
  match v with
  | PyNone => false
  | PyBool b => b
  | PyInt n => negb (Z.eqb n 0)
  | PyFloat (S754_zero _) => false
  | PyFloat _ => true
  | PyStr EmptyString => false
  | PyStr _ => true
  | PyList [] => false
  | PyList _ => true
  | PyDict [] => false
  | PyDict _ => true
  end.

(** [hasattr(v, "get")]: among the values above only a [dict] has a [get]. *)
Definition hasattr_get (v : pyval) : bool :=
  match v with
  | PyDict _ => true
  | _ => false
  end.

(** Look a key up in the items of a [dict]. *)
Fixpoint dict_lookup (items : list (string * pyval)) (k : string) : option pyval :=
  match items with
  | [] => None
  | (k', v) :: rest => if String.eqb k' k then Some v else dict_lookup rest k
  end.

(** [d.get(k)] on the items of a [dict]: the value, or [None] when absent. *)
Definition dict_get (items : list (string * pyval)) (k : string) : pyval :=
  match dict_lookup items k with
  | Some v => v
  | None => PyNone
  end.

(** ** Exceptions *)

(** Exceptions raised by the standard library and by third-party packages.
    [BinasciiError] is [binascii.Error], a subclass of [ValueError];
    [UnidentifiedImageError] is Pillow's, a subclass of [OSError];
    [OtherError] stands for every class outside the [ValueError] and
    [OSError] families ([MemoryError], [SyntaxError], Pillow's
    [DecompressionBombError], a model runtime fault, ...). *)
Inductive lib_exn : Type :=
| ValueError (msg : string)
| BinasciiError (msg : string)
| OSError (msg : string)
| UnidentifiedImageError (msg : string)
| AttributeError (msg : string)
| OtherError (cls msg : string).

(** What can leave a block of the endpoint: FastAPI's [HTTPException] or one
    of the above. *)
Inductive pyexn : Type :=
| HTTPException (status_code : Z) (detail : string)
| Lib (e : lib_exn).

(** [isinstance(e, ValueError)]. *)
Definition is_ValueError (e : lib_exn) : bool :=
  match e with
  | ValueError _ | BinasciiError _ => true
  | _ => false
  end.

(** [isinstance(e, UnidentifiedImageError)]. *)
Definition is_UnidentifiedImageError (e : lib_exn) : bool :=
  match e with
  | UnidentifiedImageError _ => true
  | _ => false
  end.

(** [str(e)], as interpolated by an f-string. *)
Definition exn_str (e : lib_exn) : string :=
  match e with
  | ValueError m | BinasciiError m | OSError m
  | UnidentifiedImageError m | AttributeError m | OtherError _ m => m
  end.

(** ** Computations that return or raise *)

Inductive completion (E A : Type) : Type :=
| Return (a : A)
| Raise (e : E).
Arguments Return {E A} a.
Arguments Raise {E A} e.

Definition bind {E A B} (c : completion E A) (k : A -> completion E B) : completion E B :=
  match c with
  | Return a => k a
  | Raise e => Raise e
  end.

(** [try: body / except ... : handler]; a handler that does not match an
    exception raises it again. *)
Definition try_except {E E' A} (body : completion E A) (handler : E -> completion E' A)
  : completion E' A :=
  match body with
  | Return a => Return a
  | Raise e => handler e
  end.

(** A library call made from the endpoint. *)
Definition lift {A} (c : completion lib_exn A) : completion pyexn A :=
  try_except c (fun e => Raise (Lib e)).

Declare Scope py_scope.
Delimit Scope py_scope with py.
Notation "x <- c ;; k" := (bind c (fun x => k))
  (at level 61, c at next level, right associativity) : py_scope.
Local Open Scope py_scope.

(** [result.get(k)]: a method call, which raises [AttributeError] on an
    object that has no [get]. *)
Definition py_get (v : pyval) (k : string) : completion lib_exn pyval :=
  match v with
  | PyDict items => Return (dict_get items k)
  | _ => Raise (AttributeError "object has no attribute 'get'")
  end.

(** [bool(s)] for a [str]: only the empty string is false. *)
Definition py_bool_str (s : string) : bool :=
  match s with
  | EmptyString => false
  | String _ _ => true
  end.

(** ** The endpoint *)

(** [class ImagePayload(BaseModel)]. *)
Record ImagePayload : Type := { image : string }.

(** What a call leaves behind: its outcome and the lines it sent to
    [logger.error]. *)
Record run : Type := { outcome : completion pyexn pyval; logged : list string }.

(** The status line FastAPI answers with: 200 for a returned value, the
    exception's own status for an [HTTPException], 500 otherwise. *)
Definition http_status (o : completion pyexn pyval) : Z :=
  match o with
  | Return _ => 200
  | Raise (HTTPException sc _) => sc
  | Raise (Lib _) => 500
  end.

Section Endpoint.

(** The decoded picture at its two stages: a Pillow image and the numpy
    array made from it. *)
Variables (pil_image ndarray : Type).

(** [base64.b64decode], [Image.open(BytesIO(...))], [.convert("RGB")] and
    [np.array]. *)
Variable b64decode : string -> completion lib_exn (list byte).
Variable Image_open : list byte -> completion lib_exn pil_image.
Variable convert_RGB : pil_image -> completion lib_exn pil_image.
Variable np_array : pil_image -> completion lib_exn ndarray.

(** [age_service.detect_and_predict] of the module-level [AgeService]. *)
Variable detect_and_predict : ndarray -> completion pyexn pyval.

(** Lines 65-67, the body of the inner [try]. *)
Definition decode_image (s : string) : completion lib_exn ndarray :=
  image_bytes <- b64decode s ;;
  opened <- Image_open image_bytes ;;
  pil <- convert_RGB opened ;;
  np_array pil.

(** Lines 59-84, the body of the outer [try]. *)
Definition age_check_body (payload : ImagePayload) : completion pyexn pyval :=
  (* 1. Validation & Decoding *)
  if negb (py_bool_str (image payload)) then
    Raise (HTTPException 400 "Empty image payload")
  else
    image_np <- try_except (decode_image (image payload))
                  (fun e =>
                     if is_ValueError e || is_UnidentifiedImageError e then
                       Raise (HTTPException 400 "Invalid image format")
                     else Raise (Lib e)) ;;
    (* 2. Inference *)
    result <- detect_and_predict image_np ;;
    (* 3. Handle Errors (No face, etc) *)
    if hasattr_get result then
      err <- lift (py_get result "error") ;;
      if truthy err then
        msg <- lift (py_get result "error") ;;
        Return (PyDict [("age_group", PyStr "Kid");
                        ("confidence", PyFloat float_zero);
                        ("forced_safety", PyBool true);
                        ("msg", msg)])
      else Return result
    else Return result.

(** Lines 57-96: [age_check] with its two outer handlers. *)
Definition age_check (payload : ImagePayload) : run :=
  match age_check_body payload with
  | Return response => {| outcome := Return response; logged := [] |}
  | Raise (HTTPException status_code detail) =>
      {| outcome := Raise (HTTPException status_code detail); logged := [] |}
  | Raise (Lib e) =>
      {| outcome :=
           Return (PyDict [("age_group", PyStr "Kid");
                           ("confidence", PyFloat float_zero);
                           ("forced_safety", PyBool true);
                           ("error", PyStr "Internal Processing Error")]);
         logged := ["API Error: " ++ exn_str e] |}
  end.

End Endpoint.

Arguments decode_image {pil_image ndarray} _ _ _ _ _.
Arguments age_check_body {pil_image ndarray} _ _ _ _ _ _.
Arguments age_check {pil_image ndarray} _ _ _ _ _ _.

(** ** The age service, after its description *)

(** Modelled from the spec: [age_service.py] is not among the sources; the
    closed enumeration of bands of section 3, ordered by restrictiveness
    with [Kid] the always-safe default. *)
Inductive AgeBand : Type := Kid | Teen | Adult.

(** Modelled from the spec: the band's string name, the [age_group] of a
    Decision (section 6). *)
Definition band_name (b : AgeBand) : string :=
  match b with
  | Kid => "Kid"
  | Teen => "Teen"
  | Adult => "Adult"
  end.

(** Modelled from the spec: a rectangular region with a detection
    confidence (section 3). *)
Record FaceRegion : Type :=
  { region_left : Z; region_top : Z; region_width : Z; region_height : Z;
    detection_confidence : spec_float }.

(** Modelled from the spec: a continuous age value with the estimator's
    confidence (section 3). *)
Record AgeEstimate : Type :=
  { age_value : spec_float; estimator_confidence : spec_float }.

(** Modelled from the spec: the Decision record under the field names of
    section 6, the optional reason travelling as [msg]. *)
Definition decision_record (band : AgeBand) (confidence : spec_float)
    (forced_safety : bool) (reason : option string) : pyval :=
  PyDict ([("age_group", PyStr (band_name band));
           ("confidence", PyFloat confidence);
           ("forced_safety", PyBool forced_safety)]
          ++ match reason with
             | Some r => [("msg", PyStr r)]
             | None => []
             end).

Section AgeService.

Variable ndarray : Type.

(** The Face Locator (4.2), regions by descending confidence, and the Age
    Estimator (4.3), which may fail with an inference error. *)
Variable face_locator : ndarray -> list FaceRegion.
Variable age_estimator : ndarray -> FaceRegion -> completion lib_exn AgeEstimate.

(** The ordered (threshold, band) table of 4.4, the band above every
    threshold, and the minimum estimator confidence of 4.5. *)
Variable band_table : list (spec_float * AgeBand).
Variable top_band : AgeBand.
Variable min_confidence : spec_float.

(** Modelled from the spec: the Band Mapper of 4.4, the first band whose
    threshold the age lies below. *)
Fixpoint band_mapper_in (table : list (spec_float * AgeBand)) (age : spec_float)
  : AgeBand :=
  match table with
  | [] => top_band
  | (threshold, band) :: rest =>
      if SFltb age threshold then band else band_mapper_in rest age
  end.

(** Modelled from the spec: the Band Mapper over the configured table. *)
Definition band_mapper : spec_float -> AgeBand := band_mapper_in band_table.

(** Modelled from the spec: [AgeService.detect_and_predict], which is not
    among the sources.  Sections 4.2 to 4.5: no face is reported through
    an [error] entry, the region of highest detection confidence is the
    one evaluated, an estimator fault is raised to the caller, an
    estimate below the minimum confidence is forced to the most
    restrictive band, and any other estimate is mapped to its band. *)
Definition spec_detect_and_predict (image_np : ndarray) : completion pyexn pyval :=
  match face_locator image_np with
  | [] => Return (PyDict [("error", PyStr "no face detected")])
  | face :: _ =>
      estimate <- lift (age_estimator image_np face) ;;
      if SFltb (estimator_confidence estimate) min_confidence then
        Return (decision_record Kid float_zero true (Some "low confidence"))
      else
        Return (decision_record (band_mapper (age_value estimate))
                  (estimator_confidence estimate) false None)
  end.

End AgeService.

(** ** Reading a Decision *)

(** The three mandatory field names of a Decision. *)
Definition decision_fields : list string :=
  ["age_group"; "confidence"; "forced_safety"].

Definition is_band_name (s : string) : bool :=
  existsb (fun b => String.eqb (band_name b) s) [Kid; Teen; Adult].

Fixpoint mem_string (k : string) (ks : list string) : bool :=
  match ks with
  | [] => false
  | k' :: rest => String.eqb k' k || mem_string k rest
  end.

Fixpoint distinct_keys (ks : list string) : bool :=
  match ks with
  | [] => true
  | k :: rest => negb (mem_string k rest) && distinct_keys rest
  end.

(** The entries of a dict besides the three mandatory fields. *)
Definition extra_items (items : list (string * pyval)) : list (string * pyval) :=
  filter (fun kv => negb (mem_string (fst kv) decision_fields)) items.

(** A structured Decision: a dict with distinct keys that holds a band name
    under [age_group], a float under [confidence], a bool under
    [forced_safety], and besides them at most one entry, a string. *)
Definition well_formed_decision (v : pyval) : bool :=
  match v with
  | PyDict items =>
      distinct_keys (map fst items)
      && match dict_lookup items "age_group" with
         | Some (PyStr s) => is_band_name s
         | _ => false
         end
      && match dict_lookup items "confidence" with
         | Some (PyFloat _) => true
         | _ => false
         end
      && match dict_lookup items "forced_safety" with
         | Some (PyBool _) => true
         | _ => false
         end
      && match extra_items items with
         | [] => true
         | [(_, PyStr _)] => true
         | _ => false
         end
  | _ => false
  end.

(** The field of a returned value, [None] when the value is no dict or has
    no such field. *)
Definition field (v : pyval) (k : string) : pyval :=
  match v with
  | PyDict items => dict_get items k
  | _ => PyNone
  end.

(** The field names of a returned value, in order. *)
Definition field_names (v : pyval) : list string :=
  match v with
  | PyDict items => map fst items
  | _ => []
  end.

(** The reason text of a Decision: the string held by its one entry besides
    the mandatory fields. *)
Definition reason_text (v : pyval) : option string :=
  match v with
  | PyDict items =>
      match extra_items items with
      | [(_, PyStr s)] => Some s
      | _ => None
      end
  | _ => None
  end.

(** ** An instance to run the endpoint on *)

(** Concrete functions for the parameters, so that [age_check] can be
    evaluated on literal payloads.  [b64decode] follows CPython's
    [base64.b64decode] in its default, non-strict mode.  The image reader is
    a stand-in for Pillow with one format of its own (the two bytes [P6],
    a width byte, a height byte, then three samples per pixel); like
    Pillow it reads the header in [open] and the samples only in
    [convert], where a short file is an [OSError].  The locator, estimator
    and thresholds are arbitrary but fixed. *)
Module Demo.

(** The six-bit value of a character of the base64 alphabet. *)
Definition b64_value (c : ascii) : option N :=
  let n := N_of_ascii c in
  (if (65 <=? n) && (n <=? 90) then Some (n - 65)
   else if (97 <=? n) && (n <=? 122) then Some (n - 71)
   else if (48 <=? n) && (n <=? 57) then Some (n + 4)
   else if n =? 43 then Some 62
   else if n =? 47 then Some 63
   else None)%N.

Definition to_byte (n : N) : byte :=
  match Byte.of_N (N.land n 255) with
  | Some b => b
  | None => x00
  end.

(** The loop of [binascii.a2b_base64]: characters outside the alphabet are
    skipped, a pad that completes a quad ends the input, and leftover
    characters at the end are an error.  [out] is the output so far, last
    byte first. *)
Fixpoint a2b_base64_from (s : string) (quad_pos leftchar pads : N)
    (out : list byte) : completion lib_exn (list byte) :=
  match s with
  | EmptyString =>
      if quad_pos =? 0 then Return (rev out)
      else if quad_pos =? 1 then
        Raise (BinasciiError
                 ("Invalid base64-encoded string: number of data characters ("
                  ++ DecimalString.NilZero.string_of_uint
                       (N.to_uint (N.of_nat (length out) / 3 * 4 + 1))
                  ++ ") cannot be 1 more than a multiple of 4"))
      else Raise (BinasciiError "Incorrect padding")
  | String c rest =>
      if Ascii.eqb c "="%char then
        if 2 <=? quad_pos then
          if 4 <=? quad_pos + (pads + 1) then Return (rev out)
          else a2b_base64_from rest quad_pos leftchar (pads + 1) out
        else a2b_base64_from rest quad_pos leftchar pads out
      else
        match b64_value c with
        | None => a2b_base64_from rest quad_pos leftchar pads out
        | Some this_ch =>
            if quad_pos =? 0 then
              a2b_base64_from rest 1 this_ch 0 out
            else if quad_pos =? 1 then
              a2b_base64_from rest 2 (N.land this_ch 15) 0
                (to_byte (N.lor (N.shiftl leftchar 2) (N.shiftr this_ch 4)) :: out)
            else if quad_pos =? 2 then
              a2b_base64_from rest 3 (N.land this_ch 3) 0
                (to_byte (N.lor (N.shiftl leftchar 4) (N.shiftr this_ch 2)) :: out)
            else
              a2b_base64_from rest 0 0 0
                (to_byte (N.lor (N.shiftl leftchar 6) this_ch) :: out)
        end
  end%N.

Fixpoint all_ascii (s : string) : bool :=
  match s with
  | EmptyString => true
  | String c rest => (N_of_ascii c <? 128)%N && all_ascii rest
  end.

Definition b64decode (s : string) : completion lib_exn (list byte) :=
  if all_ascii s then a2b_base64_from s 0 0 0 []
  else Raise (ValueError "string argument should contain only ASCII characters").

Record pil_image : Type :=
  { im_width : N; im_height : N; im_samples : list byte }.

Record ndarray : Type := { shape : N * N * N; samples : list N }.

Definition Image_open (data : list byte) : completion lib_exn pil_image :=
  match data with
  | x50 :: x36 :: w :: h :: rest =>
      Return {| im_width := Byte.to_N w; im_height := Byte.to_N h; im_samples := rest |}
  | _ => Raise (UnidentifiedImageError "cannot identify image file")
  end.

Definition convert_RGB (im : pil_image) : completion lib_exn pil_image :=
  let wanted := N.to_nat (3 * im_width im * im_height im)%N in
  if (length (im_samples im) <? wanted)%nat then
    Raise (OSError "image file is truncated")
  else
    Return {| im_width := im_width im; im_height := im_height im;
              im_samples := firstn wanted (im_samples im) |}.

Definition np_array (im : pil_image) : completion lib_exn ndarray :=
  Return {| shape := (im_height im, im_width im, 3%N);
            samples := map Byte.to_N (im_samples im) |}.

(** A binary64 value [m * 2^e]. *)
Definition float64 (m e : Z) : spec_float := binary_normalize 53 1024 m e false.

(** A face is reported when the first sample is not zero. *)
Definition face_locator (a : ndarray) : list FaceRegion :=
  match samples a with
  | r :: _ =>
      if (r =? 0)%N then []
      else [{| region_left := 0; region_top := 0;
               region_width := Z.of_N (snd (fst (shape a)));
               region_height := Z.of_N (fst (fst (shape a)));
               detection_confidence := float64 1 0 |}]
  | [] => []
  end.

(** The second sample is the age in years, the third the confidence in
    256ths; a second sample of 255 makes the estimator fail. *)
Definition age_estimator (a : ndarray) (_ : FaceRegion)
  : completion lib_exn AgeEstimate :=
  match samples a with
  | _ :: g :: b :: _ =>
      if (g =? 255)%N then Raise (OtherError "InferenceError" "model runtime fault")
      else Return {| age_value := float64 (Z.of_N g) 0;
                     estimator_confidence := float64 (Z.of_N b) (-8) |}
  | _ => Raise (OtherError "InferenceError" "malformed crop")
  end.

Definition band_table : list (spec_float * AgeBand) :=
  [(float64 13 0, Kid); (float64 18 0, Teen)].

Definition min_confidence : spec_float := float64 1 (-1).

Definition detect_and_predict : ndarray -> completion pyexn pyval :=
  spec_detect_and_predict ndarray face_locator age_estimator
    band_table Adult min_confidence.

(** The endpoint over these functions, with any service. *)
Definition age_check_with (service : ndarray -> completion pyexn pyval)
  : ImagePayload -> run :=
  age_check b64decode Image_open convert_RGB np_array service.

Definition age_check : ImagePayload -> run := age_check_with detect_and_predict.

Definition decode : string -> completion lib_exn ndarray :=
  decode_image b64decode Image_open convert_RGB np_array.

(** Payloads: one-pixel pictures in base64, and strings that are no
    picture. *)
Definition adult_portrait : ImagePayload := {| image := "UDYBAQEe4A==" |}.
Definition low_confidence_face : ImagePayload := {| image := "UDYBAQEeEA==" |}.
Definition blank_picture : ImagePayload := {| image := "UDYBAQAAAA==" |}.
Definition faulty_crop : ImagePayload := {| image := "UDYBAQH/4A==" |}.
Definition truncated_file : ImagePayload := {| image := "UDYBAQE=" |}.
Definition plain_text : ImagePayload := {| image := "aGVsbG8=" |}.
Definition bad_base64 : ImagePayload := {| image := "A" |}.
Definition only_punctuation : ImagePayload := {| image := "!!!!" |}.

End Demo.

(** ** Vocabulary of the statements *)

(** The restrictive Decision both fallback branches build, with its reason
    under the field name [key]. *)
Definition fail_safe (key : string) (reason : pyval) : pyval :=
  PyDict [("age_group", PyStr "Kid");
          ("confidence", PyFloat float_zero);
          ("forced_safety", PyBool true);
          (key, reason)].

(** The value a run returned, [None] when it raised. *)
Definition returned (r : run) : pyval :=
  match outcome r with
  | Return v => v
  | Raise _ => PyNone
  end.

(** A dict-like result with a truthy [error] entry. *)
Inductive error_report : pyval -> Prop :=
| error_report_dict (items : list (string * pyval)) (e : pyval) :
    dict_lookup items "error" = Some e ->
    truthy e = true ->
    error_report (PyDict items).

(** The ways a call of the endpoint can go, each with the run it leaves. *)
Inductive endpoint_path {ndarray : Type}
    (decoded : completion lib_exn ndarray)
    (service : ndarray -> completion pyexn pyval) (s : string) : run -> Prop :=
| path_empty :
    s = "" ->
    endpoint_path decoded service s
      {| outcome := Raise (HTTPException 400 "Empty image payload"); logged := [] |}
| path_invalid (e : lib_exn) :
    s <> "" -> decoded = Raise e ->
    is_ValueError e || is_UnidentifiedImageError e = true ->
    endpoint_path decoded service s
      {| outcome := Raise (HTTPException 400 "Invalid image format"); logged := [] |}
| path_decode_fault (e : lib_exn) :
    s <> "" -> decoded = Raise e ->
    is_ValueError e || is_UnidentifiedImageError e = false ->
    endpoint_path decoded service s
      {| outcome := Return (fail_safe "error" (PyStr "Internal Processing Error"));
         logged := ["API Error: " ++ exn_str e] |}
| path_service_http (image_np : ndarray) (status_code : Z) (detail : string) :
    s <> "" -> decoded = Return image_np ->
    service image_np = Raise (HTTPException status_code detail) ->
    endpoint_path decoded service s
      {| outcome := Raise (HTTPException status_code detail); logged := [] |}
| path_service_fault (image_np : ndarray) (e : lib_exn) :
    s <> "" -> decoded = Return image_np ->
    service image_np = Raise (Lib e) ->
    endpoint_path decoded service s
      {| outcome := Return (fail_safe "error" (PyStr "Internal Processing Error"));
         logged := ["API Error: " ++ exn_str e] |}
| path_error_entry (image_np : ndarray) (items : list (string * pyval)) :
    s <> "" -> decoded = Return image_np ->
    service image_np = Return (PyDict items) ->
    truthy (dict_get items "error") = true ->
    endpoint_path decoded service s
      {| outcome := Return (fail_safe "msg" (dict_get items "error")); logged := [] |}
| path_verbatim (image_np : ndarray) (result : pyval) :
    s <> "" -> decoded = Return image_np ->
    service image_np = Return result ->
    ~ error_report result ->
    endpoint_path decoded service s {| outcome := Return result; logged := [] |}.

(** Two Decisions that differ in their reason text at most: the same field
    names in the same order, and the same band, confidence and
    forced_safety. *)
Definition differ_in_reason_text_only (d1 d2 : pyval) : Prop :=
  field_names d1 = field_names d2
  /\ forall k, In k decision_fields -> field d1 k = field d2 k.

(** What the described service answers: the no-face report, the Decision
    forced by a low confidence, or the Decision of an estimate. *)
Inductive service_answer : pyval -> Prop :=
| answer_no_face :
    service_answer (PyDict [("error", PyStr "no face detected")])
| answer_low_confidence :
    service_answer (decision_record Kid float_zero true (Some "low confidence"))
| answer_estimate (band : AgeBand) (confidence : spec_float) :
    service_answer (decision_record band confidence false None).

(** The Decisions the endpoint returns over the described service. *)
Inductive returned_decision : pyval -> Prop :=
| returned_internal_error :
    returned_decision (fail_safe "error" (PyStr "Internal Processing Error"))
| returned_restrictive (reason : string) :
    returned_decision (fail_safe "msg" (PyStr reason))
| returned_estimate (band : AgeBand) (confidence : spec_float) :
    returned_decision (decision_record band confidence false None).

(** * Properties of the endpoint *)

Lemma truthy_dict_get (items : list (string * pyval)) (k : string) :
  truthy (dict_get items k) = true <->
  exists e, dict_lookup items k = Some e /\ truthy e = true.
Proof.
  unfold dict_get. destruct (dict_lookup items k) as [v|]; simpl; split.
  - intros H. exists v. split; [reflexivity | exact H].
  - intros [e [He Ht]]. injection He as <-. exact Ht.
  - discriminate.
  - intros [e [He _]]. discriminate.
Qed.

Lemma error_report_iff (v : pyval) :
  error_report v <->
  exists items, v = PyDict items /\ truthy (dict_get items "error") = true.
Proof.
  split.
  - intros [items e Hl Ht]. exists items. split; [reflexivity|].
    apply truthy_dict_get. exists e. split; assumption.
  - intros [items [-> Ht]]. apply truthy_dict_get in Ht as [e [Hl Ht]].
    exact (error_report_dict items e Hl Ht).
Qed.

Lemma py_bool_str_nonempty (s : string) : s <> "" -> py_bool_str s = true.
Proof. destruct s; [congruence | reflexivity]. Qed.

Section EndpointProperties.

Context {pil_image ndarray : Type}.
Variable b64decode : string -> completion lib_exn (list byte).
Variable Image_open : list byte -> completion lib_exn pil_image.
Variable convert_RGB : pil_image -> completion lib_exn pil_image.
Variable np_array : pil_image -> completion lib_exn ndarray.
Variable detect_and_predict : ndarray -> completion pyexn pyval.

Local Abbreviation decode := (decode_image b64decode Image_open convert_RGB np_array).
Local Abbreviation check :=
  (age_check b64decode Image_open convert_RGB np_array detect_and_predict).

(** Every call follows exactly one of the paths above. *)
Lemma age_check_path (payload : ImagePayload) :
  endpoint_path (decode (image payload)) detect_and_predict (image payload)
    (check payload).
Proof.
  unfold age_check, age_check_body.
  destruct (image payload) as [|c s] eqn:Es; simpl.
  - apply path_empty. reflexivity.
  - assert (Hne : String c s <> "") by discriminate.
    destruct (decode (String c s)) as [image_np|e] eqn:Ed; simpl.
    + destruct (detect_and_predict image_np) as [result|[sc d|e]] eqn:Ep; simpl.
      * destruct result as [| | | | | |items]; simpl;
          try (eapply path_verbatim; eauto;
               intros H; apply error_report_iff in H as [? [? _]]; discriminate).
        destruct (truthy (dict_get items "error")) eqn:Et.
        -- eapply path_error_entry; eauto.
        -- eapply path_verbatim; eauto.
           intros H. apply error_report_iff in H as [items' [Hi Ht]].
           injection Hi as <-. congruence.
      * eapply path_service_http; eauto.
      * eapply path_service_fault; eauto.
    + destruct (is_ValueError e || is_UnidentifiedImageError e) eqn:Ec; simpl.
      * eapply path_invalid; eauto.
      * eapply path_decode_fault; eauto.
Qed.

(** *** The paths one by one *)

Lemma check_empty (payload : ImagePayload) :
  image payload = "" ->
  check payload =
    {| outcome := Raise (HTTPException 400 "Empty image payload"); logged := [] |}.
Proof.
  intros He. unfold age_check, age_check_body. rewrite He. reflexivity.
Qed.

Lemma check_decode_raises (payload : ImagePayload) (e : lib_exn) :
  image payload <> "" ->
  decode (image payload) = Raise e ->
  check payload =
    if is_ValueError e || is_UnidentifiedImageError e then
      {| outcome := Raise (HTTPException 400 "Invalid image format"); logged := [] |}
    else
      {| outcome := Return (fail_safe "error" (PyStr "Internal Processing Error"));
         logged := ["API Error: " ++ exn_str e] |}.
Proof.
  intros Hne Hd. unfold age_check, age_check_body.
  rewrite (py_bool_str_nonempty _ Hne), Hd. simpl.
  destruct (is_ValueError e || is_UnidentifiedImageError e); reflexivity.
Qed.

Lemma check_service_raises (payload : ImagePayload) (image_np : ndarray) (x : pyexn) :
  image payload <> "" ->
  decode (image payload) = Return image_np ->
  detect_and_predict image_np = Raise x ->
  check payload =
    match x with
    | HTTPException status_code detail =>
        {| outcome := Raise (HTTPException status_code detail); logged := [] |}
    | Lib e =>
        {| outcome := Return (fail_safe "error" (PyStr "Internal Processing Error"));
           logged := ["API Error: " ++ exn_str e] |}
    end.
Proof.
  intros Hne Hd Hp. unfold age_check, age_check_body.
  rewrite (py_bool_str_nonempty _ Hne), Hd. simpl. rewrite Hp.
  destruct x; reflexivity.
Qed.

Lemma check_error_entry (payload : ImagePayload) (image_np : ndarray)
    (items : list (string * pyval)) :
  image payload <> "" ->
  decode (image payload) = Return image_np ->
  detect_and_predict image_np = Return (PyDict items) ->
  truthy (dict_get items "error") = true ->
  check payload =
    {| outcome := Return (fail_safe "msg" (dict_get items "error")); logged := [] |}.
Proof.
  intros Hne Hd Hp Ht. unfold age_check, age_check_body.
  rewrite (py_bool_str_nonempty _ Hne), Hd. simpl. rewrite Hp. simpl.
  rewrite Ht. reflexivity.
Qed.

Lemma check_no_error_entry (payload : ImagePayload) (image_np : ndarray)
    (result : pyval) :
  image payload <> "" ->
  decode (image payload) = Return image_np ->
  detect_and_predict image_np = Return result ->
  ~ error_report result ->
  check payload = {| outcome := Return result; logged := [] |}.
Proof.
  intros Hne Hd Hp Hn. unfold age_check, age_check_body.
  rewrite (py_bool_str_nonempty _ Hne), Hd. simpl. rewrite Hp. simpl.
  destruct result as [| | | | | |items]; simpl; try reflexivity.
  destruct (truthy (dict_get items "error")) eqn:Et; [|reflexivity].
  exfalso. apply Hn, error_report_iff. exists items. split; [reflexivity | exact Et].
Qed.


(** Whatever the service is, a returned value is one of the two fallback
    Decisions or the service's own result. *)
Lemma returned_value_origin (payload : ImagePayload) (d : pyval) :
  outcome (check payload) = Return d ->
  d = fail_safe "error" (PyStr "Internal Processing Error")
  \/ (exists image_np items,
         detect_and_predict image_np = Return (PyDict items)
         /\ truthy (dict_get items "error") = true
         /\ d = fail_safe "msg" (dict_get items "error"))
  \/ (exists image_np,
         detect_and_predict image_np = Return d /\ ~ error_report d).
Proof.
  generalize (age_check_path payload).
  generalize (check payload). intros r Hp.
  destruct Hp as [ | | e | image_np sc dt _ _ Hs | image_np e
                 | image_np items _ _ Hs Ht | image_np result _ _ Hs Hn ];
    simpl; intros Ho; try discriminate Ho; injection Ho as <-.
  - left. reflexivity.
  - left. reflexivity.
  - right. left. exists image_np, items. repeat split; assumption.
  - right. right. exists image_np. split; assumption.
Qed.

(** The fallback branches keep the invariant of a forced Decision by
    themselves; on the remaining path it holds when the service's results
    have it. *)
Lemma forced_safety_from_service (payload : ImagePayload) (d : pyval) :
  (forall image_np result,
      detect_and_predict image_np = Return result ->
      ~ error_report result ->
      field result "forced_safety" = PyBool true ->
      field result "age_group" = PyStr "Kid"
      /\ field result "confidence" = PyFloat float_zero) ->
  outcome (check payload) = Return d ->
  field d "forced_safety" = PyBool true ->
  field d "age_group" = PyStr "Kid" /\ field d "confidence" = PyFloat float_zero.
Proof.
  intros Hservice Ho Hf.
  destruct (returned_value_origin payload d Ho)
    as [-> | [[image_np [items [_ [_ ->]]]] | [image_np [Hs Hn]]]].
  - split; reflexivity.
  - split; reflexivity.
  - exact (Hservice image_np d Hs Hn Hf).
Qed.

(** *** Client-input faults *)

(** C3.  A payload whose image field is the empty string, or decodes to the
    empty byte sequence, is answered with the client-input fault (an
    [HTTPException] of status 400) and never with a Decision.  For a
    non-empty field this rests on Pillow refusing an empty stream with
    [UnidentifiedImageError], which is the first hypothesis. *)
Theorem empty_bytes_client_fault (payload : ImagePayload) :
  (exists msg, Image_open [] = Raise (UnidentifiedImageError msg)) ->
  image payload = "" \/ b64decode (image payload) = Return [] ->
  (exists detail,
      check payload =
        {| outcome := Raise (HTTPException 400 detail); logged := [] |})
  /\ http_status (outcome (check payload)) = 400%Z
  /\ (forall d, outcome (check payload) <> Return d).
Proof.
  intros [msg Hopen] Hempty.
  assert (H : exists detail,
             check payload =
               {| outcome := Raise (HTTPException 400 detail); logged := [] |}).
  { destruct (string_dec (image payload) "") as [He|Hne].
    - exists "Empty image payload". apply check_empty, He.
    - destruct Hempty as [He|Hb]; [contradiction|].
      exists "Invalid image format".
      rewrite (check_decode_raises payload (UnidentifiedImageError msg) Hne).
      + reflexivity.
      + unfold decode_image. rewrite Hb. simpl. rewrite Hopen. reflexivity. }
  destruct H as [detail H]. rewrite H. simpl.
  split; [exists detail; reflexivity | split; [reflexivity | discriminate]].
Qed.

(** C10.  A payload whose image field is not valid base64, so that
    [b64decode] raises [binascii.Error], is answered with the status-400
    fault "Invalid image format", and that run is the very run of any
    payload whose decoded bytes Pillow does not recognise as an image.
    The first hypothesis is that the empty string is valid base64. *)
Theorem invalid_base64_same_fault (payload : ImagePayload) (msg : string) :
  b64decode "" = Return [] ->
  b64decode (image payload) = Raise (BinasciiError msg) ->
  check payload =
    {| outcome := Raise (HTTPException 400 "Invalid image format"); logged := [] |}
  /\ forall (other : ImagePayload) (data : list byte) (msg' : string),
       image other <> "" ->
       b64decode (image other) = Return data ->
       Image_open data = Raise (UnidentifiedImageError msg') ->
       check other = check payload.
Proof.
  intros H0 Hb.
  assert (Hne : image payload <> "") by (intros He; rewrite He, H0 in Hb; discriminate).
  assert (Hp : check payload =
               {| outcome := Raise (HTTPException 400 "Invalid image format");
                  logged := [] |}).
  { rewrite (check_decode_raises payload (BinasciiError msg) Hne).
    - reflexivity.
    - unfold decode_image. rewrite Hb. reflexivity. }
  split; [exact Hp|].
  intros other data msg' Hne' Hb' Ho. rewrite Hp.
  rewrite (check_decode_raises other (UnidentifiedImageError msg') Hne').
  - reflexivity.
  - unfold decode_image. rewrite Hb'. simpl. rewrite Ho. reflexivity.
Qed.

(** Decoding failures of the two classes the inner handler names are
    client-input faults. *)
Lemma named_decode_failure_client_fault (payload : ImagePayload) (e : lib_exn) :
  image payload <> "" ->
  decode (image payload) = Raise e ->
  is_ValueError e = true \/ is_UnidentifiedImageError e = true ->
  check payload =
    {| outcome := Raise (HTTPException 400 "Invalid image format"); logged := [] |}.
Proof.
  intros Hne Hd Hc. rewrite (check_decode_raises payload e Hne Hd).
  destruct Hc as [-> | ->]; [reflexivity | rewrite orb_true_r; reflexivity].
Qed.

(** C4.  What the endpoint does with bytes that fail to decode with an
    exception outside the two classes of the inner handler (Pillow's
    [OSError] for a truncated or corrupt file, for one): the failure passes
    the inner handler, reaches the catch-all, and is answered with status
    200 and the restrictive Decision, in the very run an inference fault
    with the same message leaves; no client-input fault is raised. *)
Theorem decode_failure_past_inner_handler (payload : ImagePayload) (e : lib_exn) :
  image payload <> "" ->
  decode (image payload) = Raise e ->
  is_ValueError e = false ->
  is_UnidentifiedImageError e = false ->
  check payload =
    {| outcome :=
         Return (PyDict [("age_group", PyStr "Kid");
                         ("confidence", PyFloat float_zero);
                         ("forced_safety", PyBool true);
                         ("error", PyStr "Internal Processing Error")]);
       logged := ["API Error: " ++ exn_str e] |}
  /\ http_status (outcome (check payload)) = 200%Z
  /\ forall (other : ImagePayload) (image_np : ndarray),
       image other <> "" ->
       decode (image other) = Return image_np ->
       detect_and_predict image_np = Raise (Lib e) ->
       check other = check payload.
Proof.
  intros Hne Hd Hv Hu.
  assert (Hp := check_decode_raises payload e Hne Hd).
  rewrite Hv, Hu in Hp. simpl in Hp. rewrite Hp.
  split; [reflexivity | split; [reflexivity|]].
  intros other image_np Hne' Hd' Hs.
  rewrite (check_service_raises other image_np (Lib e) Hne' Hd' Hs). reflexivity.
Qed.

(** *** Inference faults *)

(** C7, as amended.  When the age service raises anything but an
    [HTTPException], the endpoint returns the Decision with band "Kid",
    confidence 0.0 and forced_safety true whose reason, held in the field
    [error], is the text "Internal Processing Error", and logs the fault. *)
Theorem inference_fault_decision (payload : ImagePayload) (image_np : ndarray)
    (e : lib_exn) :
  image payload <> "" ->
  decode (image payload) = Return image_np ->
  detect_and_predict image_np = Raise (Lib e) ->
  check payload =
    {| outcome :=
         Return (PyDict [("age_group", PyStr "Kid");
                         ("confidence", PyFloat float_zero);
                         ("forced_safety", PyBool true);
                         ("error", PyStr "Internal Processing Error")]);
       logged := ["API Error: " ++ exn_str e] |}
  /\ reason_text (returned (check payload)) = Some "Internal Processing Error".
Proof.
  intros Hne Hd Hs.
  rewrite (check_service_raises payload image_np (Lib e) Hne Hd Hs).
  split; reflexivity.
Qed.

(** X11.  An [HTTPException] raised by the service, whatever its status
    and detail, leaves the endpoint as it is, and nothing is logged. *)
Lemma service_http_exception_reraised (payload : ImagePayload) (image_np : ndarray)
    (status_code : Z) (detail : string) :
  image payload <> "" ->
  decode (image payload) = Return image_np ->
  detect_and_predict image_np = Raise (HTTPException status_code detail) ->
  check payload =
    {| outcome := Raise (HTTPException status_code detail); logged := [] |}.
Proof.
  intros Hne Hd Hs.
  exact (check_service_raises payload image_np _ Hne Hd Hs).
Qed.

(** C6, as amended.  The Decision returned after a fault of the age service
    agrees with the no-face fallback Decision on [age_group] ("Kid"),
    [confidence] (0.0) and [forced_safety] (true); its fourth field is
    named [error] and holds "Internal Processing Error", where the no-face
    Decision has a fourth field named [msg] holding the service's error
    entry. *)
Theorem inference_fault_agrees_with_no_face
    (faulty noface : ImagePayload) (image1 image2 : ndarray)
    (e : lib_exn) (items : list (string * pyval)) :
  image faulty <> "" ->
  decode (image faulty) = Return image1 ->
  detect_and_predict image1 = Raise (Lib e) ->
  image noface <> "" ->
  decode (image noface) = Return image2 ->
  detect_and_predict image2 = Return (PyDict items) ->
  truthy (dict_get items "error") = true ->
  exists d1 d2,
    outcome (check faulty) = Return d1
    /\ outcome (check noface) = Return d2
    /\ (forall k, In k decision_fields -> field d1 k = field d2 k)
    /\ field d1 "age_group" = PyStr "Kid"
    /\ field d1 "confidence" = PyFloat float_zero
    /\ field d1 "forced_safety" = PyBool true
    /\ field_names d1 = (decision_fields ++ ["error"])%list
    /\ field_names d2 = (decision_fields ++ ["msg"])%list
    /\ field d1 "error" = PyStr "Internal Processing Error"
    /\ field d2 "msg" = dict_get items "error".
Proof.
  intros Hne1 Hd1 Hs1 Hne2 Hd2 Hs2 Ht.
  rewrite (check_service_raises faulty image1 (Lib e) Hne1 Hd1 Hs1).
  rewrite (check_error_entry noface image2 items Hne2 Hd2 Hs2 Ht).
  eexists. eexists. split; [reflexivity|]. split; [reflexivity|].
  split.
  - intros k [<-|[<-|[<-|[]]]]; reflexivity.
  - repeat split; reflexivity.
Qed.

(** *** The result of the service *)

(** C9.  A result of the age service that is not a dict-like value with a
    truthy [error] entry is returned to the caller as it is, and nothing is
    logged. *)
Theorem result_returned_verbatim (payload : ImagePayload) (image_np : ndarray)
    (result : pyval) :
  image payload <> "" ->
  decode (image payload) = Return image_np ->
  detect_and_predict image_np = Return result ->
  ~ error_report result ->
  check payload = {| outcome := Return result; logged := [] |}.
Proof.
  intros Hne Hd Hs Hn. exact (check_no_error_entry payload image_np result Hne Hd Hs Hn).
Qed.

(** The results named in C9 are of that kind: a value that has no [get], a
    dict without an [error] entry, and a dict whose [error] entry is
    falsy. *)
Lemma no_get_no_error_report (v : pyval) : hasattr_get v = false -> ~ error_report v.
Proof. intros H R. destruct R. discriminate H. Qed.

Lemma missing_error_no_error_report (items : list (string * pyval)) :
  dict_lookup items "error" = None -> ~ error_report (PyDict items).
Proof.
  intros H R. inversion R as [items' e Hl Ht Heq]. congruence.
Qed.

Lemma falsy_error_no_error_report (items : list (string * pyval)) (e : pyval) :
  dict_lookup items "error" = Some e -> truthy e = false ->
  ~ error_report (PyDict items).
Proof.
  intros H Hf R. inversion R as [items' e' Hl Ht Heq]. congruence.
Qed.

End EndpointProperties.

(** ** The endpoint over the described age service *)

Lemma band_name_is_band_name (b : AgeBand) : is_band_name (band_name b) = true.
Proof. destruct b; reflexivity. Qed.

Lemma decision_record_well_formed (band : AgeBand) (confidence : spec_float)
    (forced_safety : bool) (reason : option string) :
  well_formed_decision (decision_record band confidence forced_safety reason) = true.
Proof.
  destruct reason as [r|]; simpl; rewrite band_name_is_band_name; reflexivity.
Qed.

Lemma decision_record_no_error_report (band : AgeBand) (confidence : spec_float)
    (forced_safety : bool) (reason : option string) :
  ~ error_report (decision_record band confidence forced_safety reason).
Proof.
  apply missing_error_no_error_report. destruct reason; reflexivity.
Qed.

Section PipelineProperties.

Context {pil_image ndarray : Type}.
Variable b64decode : string -> completion lib_exn (list byte).
Variable Image_open : list byte -> completion lib_exn pil_image.
Variable convert_RGB : pil_image -> completion lib_exn pil_image.
Variable np_array : pil_image -> completion lib_exn ndarray.
Variable face_locator : ndarray -> list FaceRegion.
Variable age_estimator : ndarray -> FaceRegion -> completion lib_exn AgeEstimate.
Variable band_table : list (spec_float * AgeBand).
Variable top_band : AgeBand.
Variable min_confidence : spec_float.

Local Abbreviation decode := (decode_image b64decode Image_open convert_RGB np_array).
Local Abbreviation service :=
  (spec_detect_and_predict ndarray face_locator age_estimator
     band_table top_band min_confidence).
Local Abbreviation check :=
  (age_check b64decode Image_open convert_RGB np_array service).

Lemma service_returns (image_np : ndarray) (result : pyval) :
  service image_np = Return result -> service_answer result.
Proof.
  unfold spec_detect_and_predict.
  destruct (face_locator image_np) as [|face faces].
  - intros H. injection H as <-. constructor.
  - destruct (age_estimator image_np face) as [estimate|e]; simpl; [|discriminate].
    destruct (SFltb (estimator_confidence estimate) min_confidence);
      intros H; injection H as <-; constructor.
Qed.

Lemma service_raises (image_np : ndarray) (x : pyexn) :
  service image_np = Raise x -> exists e, x = Lib e.
Proof.
  unfold spec_detect_and_predict.
  destruct (face_locator image_np) as [|face faces]; [discriminate|].
  destruct (age_estimator image_np face) as [estimate|e]; simpl.
  - destruct (SFltb (estimator_confidence estimate) min_confidence); discriminate.
  - intros H. injection H as <-. exists e. reflexivity.
Qed.

Lemma check_outcome (payload : ImagePayload) :
  (exists d, outcome (check payload) = Return d /\ returned_decision d)
  \/ (exists detail, outcome (check payload) = Raise (HTTPException 400 detail)).
Proof.
  generalize (age_check_path b64decode Image_open convert_RGB np_array service payload).
  generalize (check payload). intros r Hp.
  destruct Hp as [ | | e | image_np sc d _ _ Hs | image_np e
                 | image_np items _ _ Hs Ht | image_np result _ _ Hs Hn ]; simpl.
  - right. eexists. reflexivity.
  - right. eexists. reflexivity.
  - left. eexists. split; [reflexivity | constructor].
  - apply service_raises in Hs as [e He]. discriminate.
  - left. eexists. split; [reflexivity | constructor].
  - left. eexists. split; [reflexivity|].
    apply service_returns in Hs.
    inversion Hs as [Hi | Hi | band confidence Hi]; subst items;
      try (simpl in Ht; discriminate).
    apply (returned_restrictive "no face detected").
  - left. exists result. split; [reflexivity|].
    apply service_returns in Hs. destruct Hs as [ | | band confidence].
    + exfalso. apply Hn. eapply error_report_dict; reflexivity.
    + apply (returned_restrictive "low confidence").
    + constructor.
Qed.

(** C1.  Every call ends, and ends in one of two ways: it returns a
    structured Decision, or it raises the client-input fault, an
    [HTTPException] of status 400; no other exception leaves the
    endpoint. *)
Theorem decision_or_client_fault (payload : ImagePayload) :
  (exists d, outcome (check payload) = Return d /\ well_formed_decision d = true)
  \/ (exists detail, outcome (check payload) = Raise (HTTPException 400 detail)).
Proof.
  destruct (check_outcome payload) as [[d [Ho Hd]] | Hf]; [left | right; exact Hf].
  exists d. split; [exact Ho|].
  destruct Hd as [ | reason | band confidence];
    [reflexivity | reflexivity | apply decision_record_well_formed].
Qed.

(** C2.  A Decision returned with [forced_safety] true has the band "Kid"
    and the confidence 0.0. *)
Theorem forced_safety_is_restrictive (payload : ImagePayload) (d : pyval) :
  outcome (check payload) = Return d ->
  field d "forced_safety" = PyBool true ->
  field d "age_group" = PyStr "Kid" /\ field d "confidence" = PyFloat float_zero.
Proof.
  intros Ho Hf.
  apply (forced_safety_from_service b64decode Image_open convert_RGB np_array
           service payload d); try assumption.
  intros image_np result Hs _ Hforced. apply service_returns in Hs.
  destruct Hs as [ | | band confidence];
    [discriminate Hforced | split; reflexivity | discriminate Hforced].
Qed.

(** C8.  Every Decision returned, on each return path, holds a band name
    under [age_group], a float under [confidence] and a bool under
    [forced_safety], and besides these three fields either nothing or one
    field that holds a string. *)
Theorem decision_fields_on_every_path (payload : ImagePayload) (d : pyval) :
  outcome (check payload) = Return d ->
  exists (band : AgeBand) (confidence : spec_float) (forced_safety : bool),
    field d "age_group" = PyStr (band_name band)
    /\ field d "confidence" = PyFloat confidence
    /\ field d "forced_safety" = PyBool forced_safety
    /\ (field_names d = decision_fields
        \/ exists key reason,
             field_names d = (decision_fields ++ [key])%list
             /\ mem_string key decision_fields = false
             /\ field d key = PyStr reason).
Proof.
  intros Ho.
  destruct (check_outcome payload) as [[d' [Ho' Hd]] | [detail Hr]];
    [|congruence].
  assert (d' = d) by congruence. subst d'.
  destruct Hd as [ | reason | band confidence].
  - exists Kid, float_zero, true. repeat split.
    right. exists "error", "Internal Processing Error". repeat split.
  - exists Kid, float_zero, true. repeat split.
    right. exists "msg", reason. repeat split.
  - exists band, confidence, false. repeat split. left. reflexivity.
Qed.

(** C5.  When the picture decodes and the service finds no face in it, the
    endpoint returns exactly the Decision with band "Kid", confidence 0.0,
    forced_safety true and the reason "no face detected", and logs
    nothing. *)
Theorem no_face_decision (payload : ImagePayload) (image_np : ndarray) :
  image payload <> "" ->
  decode (image payload) = Return image_np ->
  face_locator image_np = [] ->
  (exists items,
      service image_np = Return (PyDict items)
      /\ truthy (dict_get items "error") = true)
  /\ check payload =
       {| outcome :=
            Return (PyDict [("age_group", PyStr "Kid");
                            ("confidence", PyFloat float_zero);
                            ("forced_safety", PyBool true);
                            ("msg", PyStr "no face detected")]);
          logged := [] |}.
Proof.
  intros Hne Hd Hl.
  assert (Hs : service image_np = Return (PyDict [("error", PyStr "no face detected")])).
  { unfold spec_detect_and_predict. rewrite Hl. reflexivity. }
  split.
  - eexists. split; [exact Hs | reflexivity].
  - rewrite (check_error_entry _ _ _ _ _ payload image_np _ Hne Hd Hs eq_refl).
    reflexivity.
Qed.

End PipelineProperties.

(** ** Runs on literal payloads *)

Example run_adult_portrait :
  Demo.age_check Demo.adult_portrait =
    {| outcome :=
         Return (PyDict [("age_group", PyStr "Adult");
                         ("confidence", PyFloat (Demo.float64 7 (-3)));
                         ("forced_safety", PyBool false)]);
       logged := [] |}.
Proof. reflexivity. Qed.

Example run_blank_picture :
  Demo.age_check Demo.blank_picture =
    {| outcome := Return (fail_safe "msg" (PyStr "no face detected")); logged := [] |}.
Proof. reflexivity. Qed.

Example run_truncated_file :
  Demo.age_check Demo.truncated_file =
    {| outcome := Return (fail_safe "error" (PyStr "Internal Processing Error"));
       logged := ["API Error: image file is truncated"] |}.
Proof. reflexivity. Qed.

Example run_plain_text :
  Demo.age_check Demo.plain_text =
    {| outcome := Raise (HTTPException 400 "Invalid image format"); logged := [] |}.
Proof. reflexivity. Qed.

Example run_empty_field :
  Demo.age_check {| image := "" |} =
    {| outcome := Raise (HTTPException 400 "Empty image payload"); logged := [] |}.
Proof. reflexivity. Qed.

(** The endpoint hands on whatever a service without an error report
    returns: a falsy [error] entry, a value with no [get], or a record that
    says [forced_safety] next to a permissive band.  The shape of the
    Decision on that path is the service's doing. *)
Example run_falsy_error_entry :
  outcome (Demo.age_check_with (fun _ => Return (PyDict [("error", PyStr "")]))
             Demo.adult_portrait)
  = Return (PyDict [("error", PyStr "")]).
Proof. reflexivity. Qed.

Example run_result_without_get :
  outcome (Demo.age_check_with (fun _ => Return (PyList [PyInt 30])) Demo.adult_portrait)
  = Return (PyList [PyInt 30]).
Proof. reflexivity. Qed.

Example run_unchecked_record :
  outcome (Demo.age_check_with
             (fun _ => Return (decision_record Adult (Demo.float64 7 (-3)) true None))
             Demo.adult_portrait)
  = Return (decision_record Adult (Demo.float64 7 (-3)) true None).
Proof. reflexivity. Qed.

(** A truthy [error] entry that is no string travels on as the [msg]. *)
Example run_error_entry_not_a_string :
  outcome (Demo.age_check_with (fun _ => Return (PyDict [("error", PyInt 7)]))
             Demo.adult_portrait)
  = Return (fail_safe "msg" (PyInt 7)).
Proof. reflexivity. Qed.

(** ** Instances of the theorems *)

Lemma forced_safety_is_restrictive_witness :
  outcome (Demo.age_check Demo.low_confidence_face)
    = Return (decision_record Kid float_zero true (Some "low confidence"))
  /\ field (decision_record Kid float_zero true (Some "low confidence")) "age_group"
     = PyStr "Kid"
  /\ field (decision_record Kid float_zero true (Some "low confidence")) "confidence"
     = PyFloat float_zero.
Proof.
  split; [reflexivity|].
  apply (forced_safety_is_restrictive Demo.b64decode Demo.Image_open Demo.convert_RGB
           Demo.np_array Demo.face_locator Demo.age_estimator Demo.band_table Adult
           Demo.min_confidence Demo.low_confidence_face); reflexivity.
Defined.

Lemma decision_fields_on_every_path_witness :
  exists (band : AgeBand) (confidence : spec_float) (forced_safety : bool),
    let d := returned (Demo.age_check Demo.adult_portrait) in
    field d "age_group" = PyStr (band_name band)
    /\ field d "confidence" = PyFloat confidence
    /\ field d "forced_safety" = PyBool forced_safety
    /\ (field_names d = decision_fields
        \/ exists key reason,
             field_names d = (decision_fields ++ [key])%list
             /\ mem_string key decision_fields = false
             /\ field d key = PyStr reason).
Proof.
  apply (decision_fields_on_every_path Demo.b64decode Demo.Image_open Demo.convert_RGB
           Demo.np_array Demo.face_locator Demo.age_estimator Demo.band_table Adult
           Demo.min_confidence Demo.adult_portrait). reflexivity.
Defined.

Lemma no_face_decision_witness :
  Demo.face_locator {| Demo.shape := (1, 1, 3)%N; Demo.samples := [0; 0; 0]%N |} = []
  /\ Demo.age_check Demo.blank_picture =
       {| outcome :=
            Return (PyDict [("age_group", PyStr "Kid");
                            ("confidence", PyFloat float_zero);
                            ("forced_safety", PyBool true);
                            ("msg", PyStr "no face detected")]);
          logged := [] |}.
Proof.
  split; [reflexivity|].
  apply (no_face_decision Demo.b64decode Demo.Image_open Demo.convert_RGB
           Demo.np_array Demo.face_locator Demo.age_estimator Demo.band_table Adult
           Demo.min_confidence Demo.blank_picture
           {| Demo.shape := (1, 1, 3)%N; Demo.samples := [0; 0; 0]%N |});
    [discriminate | reflexivity | reflexivity].
Defined.

Lemma empty_bytes_client_fault_witness :
  Demo.b64decode (image Demo.only_punctuation) = Return []
  /\ http_status (outcome (Demo.age_check Demo.only_punctuation)) = 400%Z.
Proof.
  split; [reflexivity|].
  apply (empty_bytes_client_fault Demo.b64decode Demo.Image_open Demo.convert_RGB
           Demo.np_array Demo.detect_and_predict Demo.only_punctuation).
  - exists "cannot identify image file". reflexivity.
  - right. reflexivity.
Defined.

Lemma invalid_base64_same_fault_witness :
  Demo.age_check Demo.bad_base64 =
    {| outcome := Raise (HTTPException 400 "Invalid image format"); logged := [] |}
  /\ Demo.age_check Demo.plain_text = Demo.age_check Demo.bad_base64.
Proof.
  destruct (invalid_base64_same_fault Demo.b64decode Demo.Image_open Demo.convert_RGB
              Demo.np_array Demo.detect_and_predict Demo.bad_base64
              "Invalid base64-encoded string: number of data characters (1) cannot be 1 more than a multiple of 4"
              eq_refl eq_refl) as [Hrun Hsame].
  split; [exact Hrun|].
  apply (Hsame Demo.plain_text
           ["h"%byte; "e"%byte; "l"%byte; "l"%byte; "o"%byte]
           "cannot identify image file");
    [discriminate | reflexivity | reflexivity].
Defined.

Lemma decode_failure_past_inner_handler_witness :
  Demo.decode (image Demo.truncated_file) = Raise (OSError "image file is truncated")
  /\ http_status (outcome (Demo.age_check Demo.truncated_file)) = 200%Z.
Proof.
  split; [reflexivity|].
  apply (decode_failure_past_inner_handler Demo.b64decode Demo.Image_open
           Demo.convert_RGB Demo.np_array Demo.detect_and_predict
           Demo.truncated_file (OSError "image file is truncated"));
    [discriminate | reflexivity | reflexivity | reflexivity].
Defined.

Lemma inference_fault_decision_witness :
  reason_text (returned (Demo.age_check Demo.faulty_crop))
  = Some "Internal Processing Error".
Proof.
  apply (inference_fault_decision Demo.b64decode Demo.Image_open Demo.convert_RGB
           Demo.np_array Demo.detect_and_predict Demo.faulty_crop
           {| Demo.shape := (1, 1, 3)%N; Demo.samples := [1; 255; 224]%N |}
           (OtherError "InferenceError" "model runtime fault"));
    [discriminate | reflexivity | reflexivity].
Defined.

Lemma inference_fault_agrees_with_no_face_witness :
  exists d1 d2,
    outcome (Demo.age_check Demo.faulty_crop) = Return d1
    /\ outcome (Demo.age_check Demo.blank_picture) = Return d2
    /\ (forall k, In k decision_fields -> field d1 k = field d2 k)
    /\ field d1 "age_group" = PyStr "Kid"
    /\ field d1 "confidence" = PyFloat float_zero
    /\ field d1 "forced_safety" = PyBool true
    /\ field_names d1 = (decision_fields ++ ["error"])%list
    /\ field_names d2 = (decision_fields ++ ["msg"])%list
    /\ field d1 "error" = PyStr "Internal Processing Error"
    /\ field d2 "msg" = PyStr "no face detected".
Proof.
  apply (inference_fault_agrees_with_no_face Demo.b64decode Demo.Image_open
           Demo.convert_RGB Demo.np_array Demo.detect_and_predict
           Demo.faulty_crop Demo.blank_picture
           {| Demo.shape := (1, 1, 3)%N; Demo.samples := [1; 255; 224]%N |}
           {| Demo.shape := (1, 1, 3)%N; Demo.samples := [0; 0; 0]%N |}
           (OtherError "InferenceError" "model runtime fault")
           [("error", PyStr "no face detected")]);
    [discriminate | reflexivity | reflexivity
     | discriminate | reflexivity | reflexivity | reflexivity].
Defined.

Lemma result_returned_verbatim_witness :
  Demo.age_check Demo.adult_portrait =
    {| outcome := Return (decision_record Adult (Demo.float64 7 (-3)) false None);
       logged := [] |}.
Proof.
  apply (result_returned_verbatim Demo.b64decode Demo.Image_open Demo.convert_RGB
           Demo.np_array Demo.detect_and_predict Demo.adult_portrait
           {| Demo.shape := (1, 1, 3)%N; Demo.samples := [1; 30; 224]%N |});
    [discriminate | reflexivity | reflexivity
     | apply decision_record_no_error_report].
Defined.

(** ** Where the code and the stated claims part *)

(** C6, as stated, fails: after an estimator fault the Decision names its
    reason field [error], the no-face Decision names it [msg]. *)
Lemma inference_fault_field_names_differ :
  exists image_np e d1 d2,
    Demo.decode (image Demo.faulty_crop) = Return image_np
    /\ Demo.detect_and_predict image_np = Raise (Lib e)
    /\ outcome (Demo.age_check Demo.faulty_crop) = Return d1
    /\ outcome (Demo.age_check Demo.blank_picture) = Return d2
    /\ ~ differ_in_reason_text_only d1 d2.
Proof.
  do 4 eexists. repeat (split; [reflexivity|]).
  intros [Hn _]. discriminate Hn.
Qed.

(** C7, as stated, fails: the reason text after an inference fault is
    "Internal Processing Error", which is not the string
    "internal processing error". *)
Lemma inference_fault_reason_text_differs :
  exists image_np e d,
    Demo.decode (image Demo.faulty_crop) = Return image_np
    /\ Demo.detect_and_predict image_np = Raise (Lib e)
    /\ outcome (Demo.age_check Demo.faulty_crop) = Return d
    /\ reason_text d <> Some "internal processing error".
Proof.
  do 3 eexists. repeat (split; [reflexivity|]).
  discriminate.
Qed.

(** ** Further properties of the endpoint, for any service *)

Lemma lookup_in_extra_items (items : list (string * pyval)) (k : string) (e : pyval) :
  dict_lookup items k = Some e ->
  mem_string k decision_fields = false ->
  In (k, e) (extra_items items).
Proof.
  intros Hl Hk. unfold extra_items. apply filter_In. split.
  - induction items as [|[k' v] rest IH]; simpl in Hl; [discriminate|].
    destruct (String.eqb k' k) eqn:Ek.
    + apply String.eqb_eq in Ek. subst k'. injection Hl as <-. left. reflexivity.
    + right. exact (IH Hl).
  - change (negb (mem_string k decision_fields) = true). rewrite Hk. reflexivity.
Qed.

Lemma well_formed_error_entry_is_string (items : list (string * pyval)) :
  well_formed_decision (PyDict items) = true ->
  truthy (dict_get items "error") = true ->
  exists s, dict_get items "error" = PyStr s.
Proof.
  intros Hw Ht. apply truthy_dict_get in Ht as [e [Hl _]].
  unfold dict_get. rewrite Hl.
  assert (Hin := lookup_in_extra_items items "error" e Hl eq_refl).
  simpl in Hw. apply andb_prop in Hw as [_ Hx].
  destruct (extra_items items) as [|[k0 v0] [|other more]].
  - destruct Hin.
  - destruct Hin as [Heq|[]]. injection Heq as _ <-.
    destruct v0; try discriminate Hx. eexists. reflexivity.
  - destruct v0; discriminate Hx.
Qed.

Lemma fail_safe_msg_no_error_report (reason : pyval) :
  ~ error_report (fail_safe "msg" reason).
Proof. apply missing_error_no_error_report. reflexivity. Qed.

Section EndpointFurtherProperties.

Context {pil_image ndarray : Type}.
Variable b64decode : string -> completion lib_exn (list byte).
Variable Image_open : list byte -> completion lib_exn pil_image.
Variable convert_RGB : pil_image -> completion lib_exn pil_image.
Variable np_array : pil_image -> completion lib_exn ndarray.
Variable detect_and_predict : ndarray -> completion pyexn pyval.

Local Abbreviation decode := (decode_image b64decode Image_open convert_RGB np_array).
Local Abbreviation check_with :=
  (age_check b64decode Image_open convert_RGB np_array).
Local Abbreviation check := (check_with detect_and_predict).


(** X1.  With a service that raises no [HTTPException], the fault
    "Empty image payload" is raised exactly for the empty image field. *)
Theorem empty_payload_fault_iff (payload : ImagePayload) :
  (forall image_np status_code detail,
      detect_and_predict image_np <> Raise (HTTPException status_code detail)) ->
  (outcome (check payload) = Raise (HTTPException 400 "Empty image payload")
   <-> image payload = "").
Proof.
  intros Hservice. split.
  - generalize (age_check_path b64decode Image_open convert_RGB np_array
                  detect_and_predict payload).
    generalize (check payload). intros r Hp.
    destruct Hp as [ He | | | image_np sc dt _ _ Hs | | | ];
      simpl; intros Ho; try discriminate Ho.
    + exact He.
    + exfalso. exact (Hservice _ _ _ Hs).
  - intros He. rewrite (check_empty _ _ _ _ _ payload He). reflexivity.
Qed.

(** X3.  With a service that raises no [HTTPException], the fault
    "Invalid image format" is raised exactly when the field is not empty
    and one of the decoding steps raises a [ValueError] or an
    [UnidentifiedImageError]. *)
Theorem invalid_format_fault_iff (payload : ImagePayload) :
  (forall image_np status_code detail,
      detect_and_predict image_np <> Raise (HTTPException status_code detail)) ->
  (outcome (check payload) = Raise (HTTPException 400 "Invalid image format")
   <-> image payload <> ""
       /\ exists e, decode (image payload) = Raise e
                    /\ (is_ValueError e = true \/ is_UnidentifiedImageError e = true)).
Proof.
  intros Hservice. split.
  - generalize (age_check_path b64decode Image_open convert_RGB np_array
                  detect_and_predict payload).
    generalize (check payload). intros r Hp.
    destruct Hp as [ | e Hne Hd Hc | | image_np sc dt _ _ Hs | | | ];
      simpl; intros Ho; try discriminate Ho.
    + split; [exact Hne|]. exists e. split; [exact Hd|].
      apply orb_true_iff. exact Hc.
    + exfalso. exact (Hservice _ _ _ Hs).
  - intros [Hne [e [Hd Hc]]].
    rewrite (named_decode_failure_client_fault _ _ _ _ _ payload e Hne Hd Hc).
    reflexivity.
Qed.

(** X2.  When decoding fails the service is not consulted: the run is the
    same under any other service. *)
Theorem decode_failure_ignores_service
    (other_service : ndarray -> completion pyexn pyval)
    (payload : ImagePayload) (e : lib_exn) :
  image payload <> "" ->
  decode (image payload) = Raise e ->
  check_with other_service payload = check payload.
Proof.
  intros Hne Hd.
  rewrite (check_decode_raises _ _ _ _ other_service payload e Hne Hd).
  rewrite (check_decode_raises _ _ _ _ detect_and_predict payload e Hne Hd).
  reflexivity.
Qed.

(** X6.  A returned value that is a dict with a truthy [error] entry is the
    internal-error Decision and nothing else: an error entry of the
    service's own never reaches the caller under that name. *)
Theorem error_entry_means_internal_error (payload : ImagePayload) (d : pyval) :
  outcome (check payload) = Return d ->
  error_report d ->
  d = fail_safe "error" (PyStr "Internal Processing Error").
Proof.
  intros Ho Hr.
  destruct (returned_value_origin _ _ _ _ _ payload d Ho)
    as [Hd | [[image_np [items [_ [_ Hd]]]] | [image_np [_ Hn]]]].
  - exact Hd.
  - subst d. exfalso. exact (fail_safe_msg_no_error_report _ Hr).
  - contradiction.
Qed.

(** X7.  A call logs nothing or one line that starts with "API Error: ",
    and it logs exactly when it returns the internal-error Decision. *)
Theorem logged_iff_internal_error (payload : ImagePayload) :
  (logged (check payload) = []
   \/ exists e, logged (check payload) = ["API Error: " ++ exn_str e])
  /\ (logged (check payload) <> []
      <-> outcome (check payload)
          = Return (fail_safe "error" (PyStr "Internal Processing Error"))).
Proof.
  generalize (age_check_path b64decode Image_open convert_RGB np_array
                detect_and_predict payload).
  generalize (check payload). intros r Hp.
  destruct Hp as [ | | e | image_np sc dt | image_np e
                 | image_np items | image_np result _ _ _ Hn ]; simpl.
  - split; [left; reflexivity|]. split; [congruence | discriminate].
  - split; [left; reflexivity|]. split; [congruence | discriminate].
  - split; [right; exists e; reflexivity|]. split; [reflexivity | discriminate].
  - split; [left; reflexivity|]. split; [congruence | discriminate].
  - split; [right; exists e; reflexivity|]. split; [reflexivity | discriminate].
  - split; [left; reflexivity|]. split; [congruence | discriminate].
  - split; [left; reflexivity|]. split; [congruence|].
    intros Hx. injection Hx as ->. exfalso. apply Hn.
    eapply error_report_dict; reflexivity.
Qed.

(** X8.  A truthy [error] entry of the service's result, of whatever type,
    becomes the [msg] of the restrictive Decision; every other entry of
    that result is left behind, and nothing is logged. *)
Theorem error_entry_becomes_msg (payload : ImagePayload) (image_np : ndarray)
    (items : list (string * pyval)) :
  image payload <> "" ->
  decode (image payload) = Return image_np ->
  detect_and_predict image_np = Return (PyDict items) ->
  truthy (dict_get items "error") = true ->
  logged (check payload) = []
  /\ exists d,
       outcome (check payload) = Return d
       /\ field_names d = (decision_fields ++ ["msg"])%list
       /\ field d "age_group" = PyStr "Kid"
       /\ field d "confidence" = PyFloat float_zero
       /\ field d "forced_safety" = PyBool true
       /\ field d "msg" = dict_get items "error"
       /\ forall k, mem_string k (decision_fields ++ ["msg"]) = false ->
                    field d k = PyNone.
Proof.
  intros Hne Hd Hs Ht.
  rewrite (check_error_entry _ _ _ _ _ payload image_np items Hne Hd Hs Ht).
  split; [reflexivity|]. eexists. split; [reflexivity|].
  repeat (split; [reflexivity|]).
  intros k Hk. simpl in Hk.
  repeat (apply orb_false_elim in Hk as [?E Hk]).
  unfold field, fail_safe, dict_get. simpl.
  rewrite E, E0, E1, E2. reflexivity.
Qed.

(** X9.  A returned value that is not a result of the service is one of the
    two restrictive Decisions: band "Kid", confidence 0.0, forced_safety
    true, and a fourth field named [error] or [msg]. *)
Theorem endpoint_built_decision_is_restrictive (payload : ImagePayload) (d : pyval) :
  outcome (check payload) = Return d ->
  (forall image_np, detect_and_predict image_np <> Return d) ->
  field d "age_group" = PyStr "Kid"
  /\ field d "confidence" = PyFloat float_zero
  /\ field d "forced_safety" = PyBool true
  /\ (field_names d = (decision_fields ++ ["error"])%list
      \/ field_names d = (decision_fields ++ ["msg"])%list).
Proof.
  intros Ho Hnot.
  destruct (returned_value_origin _ _ _ _ _ payload d Ho)
    as [-> | [[image_np [items [_ [_ ->]]]] | [image_np [Hs _]]]].
  - repeat split. left. reflexivity.
  - repeat split. right. reflexivity.
  - exfalso. exact (Hnot image_np Hs).
Qed.

(** X10.  The endpoint keeps results structured: when every result of the
    service is a structured Decision or a dict whose [error] entry is a
    non-empty string, every value the endpoint returns is a structured
    Decision. *)
Theorem structured_results_stay_structured (payload : ImagePayload) (d : pyval) :
  (forall image_np result,
      detect_and_predict image_np = Return result ->
      well_formed_decision result = true
      \/ exists items s,
           result = PyDict items /\ dict_get items "error" = PyStr s /\ s <> "") ->
  outcome (check payload) = Return d ->
  well_formed_decision d = true.
Proof.
  intros Hservice Ho.
  destruct (returned_value_origin _ _ _ _ _ payload d Ho)
    as [-> | [[image_np [items [Hs [Ht ->]]]] | [image_np [Hs Hn]]]].
  - reflexivity.
  - destruct (Hservice image_np _ Hs) as [Hw | [items' [s [Hi [Hg _]]]]].
    + destruct (well_formed_error_entry_is_string items Hw Ht) as [s ->].
      reflexivity.
    + injection Hi as <-. rewrite Hg. reflexivity.
  - destruct (Hservice image_np _ Hs) as [Hw | [items [s [-> [Hg Hs']]]]].
    + exact Hw.
    + exfalso. apply Hn, error_report_iff. exists items.
      split; [reflexivity|]. rewrite Hg. destruct s; [congruence | reflexivity].
Qed.

End EndpointFurtherProperties.

(** ** Instances of the further properties *)


Lemma empty_payload_fault_iff_witness :
  outcome (Demo.age_check_with (fun _ => Return PyNone) {| image := "" |})
    = Raise (HTTPException 400 "Empty image payload")
  <-> image {| image := "" |} = "".
Proof.
  apply (empty_payload_fault_iff Demo.b64decode Demo.Image_open Demo.convert_RGB
           Demo.np_array (fun _ => Return PyNone) {| image := "" |}).
  intros image_np status_code detail. discriminate.
Defined.

Lemma invalid_format_fault_iff_witness :
  outcome (Demo.age_check_with (fun _ => Return PyNone) Demo.bad_base64)
    = Raise (HTTPException 400 "Invalid image format")
  <-> image Demo.bad_base64 <> ""
      /\ exists e, Demo.decode (image Demo.bad_base64) = Raise e
                   /\ (is_ValueError e = true \/ is_UnidentifiedImageError e = true).
Proof.
  apply (invalid_format_fault_iff Demo.b64decode Demo.Image_open Demo.convert_RGB
           Demo.np_array (fun _ => Return PyNone) Demo.bad_base64).
  intros image_np status_code detail. discriminate.
Defined.

Lemma decode_failure_ignores_service_witness :
  Demo.age_check_with (fun _ => Return PyNone) Demo.plain_text
  = Demo.age_check Demo.plain_text.
Proof.
  apply (decode_failure_ignores_service Demo.b64decode Demo.Image_open
           Demo.convert_RGB Demo.np_array Demo.detect_and_predict
           (fun _ => Return PyNone) Demo.plain_text
           (UnidentifiedImageError "cannot identify image file"));
    [discriminate | reflexivity].
Defined.

Lemma error_entry_means_internal_error_witness :
  returned (Demo.age_check Demo.faulty_crop)
  = fail_safe "error" (PyStr "Internal Processing Error").
Proof.
  apply (error_entry_means_internal_error Demo.b64decode Demo.Image_open
           Demo.convert_RGB Demo.np_array Demo.detect_and_predict Demo.faulty_crop).
  - reflexivity.
  - apply (error_report_dict _ (PyStr "Internal Processing Error"));
      reflexivity.
Defined.

Lemma error_entry_becomes_msg_witness :
  let service := fun _ : Demo.ndarray =>
    Return (E := pyexn)
      (PyDict [("error", PyInt 7); ("age_group", PyStr "Adult"); ("faces", PyInt 0)]) in
  logged (Demo.age_check_with service Demo.adult_portrait) = []
  /\ exists d,
       outcome (Demo.age_check_with service Demo.adult_portrait) = Return d
       /\ field_names d = (decision_fields ++ ["msg"])%list
       /\ field d "age_group" = PyStr "Kid"
       /\ field d "confidence" = PyFloat float_zero
       /\ field d "forced_safety" = PyBool true
       /\ field d "msg" = PyInt 7
       /\ forall k, mem_string k (decision_fields ++ ["msg"]) = false ->
                    field d k = PyNone.
Proof.
  intros service.
  apply (error_entry_becomes_msg Demo.b64decode Demo.Image_open Demo.convert_RGB
           Demo.np_array service Demo.adult_portrait
           {| Demo.shape := (1, 1, 3)%N; Demo.samples := [1; 30; 224]%N |}
           [("error", PyInt 7); ("age_group", PyStr "Adult"); ("faces", PyInt 0)]);
    [discriminate | reflexivity | reflexivity | reflexivity].
Defined.

Lemma endpoint_built_decision_is_restrictive_witness :
  let service := fun _ : Demo.ndarray =>
    Raise (A := pyval) (Lib (OtherError "RuntimeError" "model not loaded")) in
  let d := returned (Demo.age_check_with service Demo.adult_portrait) in
  field d "age_group" = PyStr "Kid"
  /\ field d "confidence" = PyFloat float_zero
  /\ field d "forced_safety" = PyBool true
  /\ (field_names d = (decision_fields ++ ["error"])%list
      \/ field_names d = (decision_fields ++ ["msg"])%list).
Proof.
  intros service d.
  apply (endpoint_built_decision_is_restrictive Demo.b64decode Demo.Image_open
           Demo.convert_RGB Demo.np_array service Demo.adult_portrait d).
  - reflexivity.
  - intros image_np. discriminate.
Defined.

Lemma structured_results_stay_structured_witness :
  let service := fun _ : Demo.ndarray =>
    Return (E := pyexn) (decision_record Adult (Demo.float64 7 (-3)) false None) in
  well_formed_decision (returned (Demo.age_check_with service Demo.adult_portrait))
  = true.
Proof.
  intros service.
  apply (structured_results_stay_structured Demo.b64decode Demo.Image_open
           Demo.convert_RGB Demo.np_array service Demo.adult_portrait).
  - intros image_np result Hs. injection Hs as <-. left. reflexivity.
  - reflexivity.
Defined.

Lemma service_http_exception_reraised_witness :
  let service := fun _ : Demo.ndarray =>
    Raise (A := pyval) (HTTPException 503 "model not loaded") in
  Demo.age_check_with service Demo.adult_portrait
  = {| outcome := Raise (HTTPException 503 "model not loaded"); logged := [] |}.
Proof.
  intros service.
  apply (service_http_exception_reraised Demo.b64decode Demo.Image_open
           Demo.convert_RGB Demo.np_array service Demo.adult_portrait
           {| Demo.shape := (1, 1, 3)%N; Demo.samples := [1; 30; 224]%N |});
    [discriminate | reflexivity | reflexivity].
Defined.
